(** * Kauldron training step: [kauldron/train/train_step.py]

    A shallow embedding of [TrainState], [Auxiliaries], [ModelWithAux] and
    [TrainStep], and the properties of the training transition.

    Conventions of the embedding:
    - a Python [int] is a [Z]; a Python [float] is a [spec_float];
    - a [dict] with string keys is a [gmap string _] (equality of gmaps is
      equality of Python dicts, which ignores insertion order);
    - a raised exception is [None];
    - [TrainState] instances are objects of a store: every constructor call
      allocates a new reference, and attribute reads go through the store;
    - the model, the optimizer, the losses, metrics and summaries, the RNG
      streams and the jax/optax/flax functions are collaborators that the
      file does not define: they are fields of type classes and records. *)

From Stdlib Require Import ZArith SpecFloat.
From stdpp Require Import base option list strings gmap.

Set Default Proof Using "Type".

(** ** Python values *)

Set Warnings "-register-all".

(** A pytree: [None], an array leaf, a [dict] or a [tuple] of pytrees. *)
Inductive PyTree (A : Type) : Type :=
  | PyNone
  | Leaf (a : A)
  | Dict (items : list (string * PyTree A))
  | Tuple (items : list (PyTree A)).
Arguments PyNone {A}.
Arguments Leaf {A} a.
Arguments Dict {A} items.
Arguments Tuple {A} items.

(** The types and the operations that come from jax, flax and
    [kauldron.metrics]. [Array_bool] is [Array.__bool__]; [State_merge] is
    [kd_metrics.State.merge]. *)
Class Backend := {
  Array : Type;
  Array_bool : Array → bool;
  Rngs : Type;
  ElementSpec : Type;
  ModelInputs : Type;
  Loss : Type;
  State : Type;
  State_merge : State → State → State;
  Kwargs : Type;
}.

(** [bool(v)]: [None], the empty dict and the empty tuple are falsy. *)
Definition py_bool `{Backend} (v : PyTree Array) : bool :=
  match v with
  | PyNone => false
  | Leaf a => Array_bool a
  | Dict [] => false
  | Dict (_ :: _) => true
  | Tuple [] => false
  | Tuple (_ :: _) => true
  end.

(** A dict comprehension [{k: v for k, v in items}]: a later item
    overwrites an earlier one with the same key. *)
Definition dict_of_items {V} (items : list (string * V)) : gmap string V :=
  foldl (λ d kv, <[kv.1 := kv.2]> d) ∅ items.

(** ** Computations over a store, with exceptions *)

(** A computation reads and extends the store [Σ] and returns a value or
    raises; the store survives an exception. *)
Definition Eff (Σ A : Type) : Type := Σ → option A * Σ.

#[global] Instance Eff_ret {Σ} : MRet (Eff Σ) := λ A a σ, (Some a, σ).
#[global] Instance Eff_bind {Σ} : MBind (Eff Σ) := λ A B f m σ,
  match m σ with
  | (Some a, σ') => f a σ'
  | (None, σ') => (None, σ')
  end.

(** A pure computation that may raise. *)
Definition pure {Σ A} (o : option A) : Eff Σ A := λ σ, (o, σ).

(** ** TrainState *)

Module TrainState.
Section TrainState.
Context `{Backend}.

Record t := mk {
  step : Z;
  params : PyTree Array;
  opt_state : PyTree Array;
  training_time_hours : spec_float;
}.

(** References to [TrainState] objects, and the store that holds them. *)
Definition ref := nat.
Definition store := list t.

(** The constructor call [TrainState(...)]. *)
Definition new (s : t) : Eff store ref := λ σ, (Some (length σ), σ ++ [s]).

(** The attribute read [self.f]. *)
Definition getattr {A} (f : t → A) (self : ref) : Eff store A :=
  λ σ, (f <$> σ !! self, σ).

(** One keyword argument [field=v] of a call of [replace]. *)
Inductive change :=
  | step_ (v : Z)
  | params_ (v : PyTree Array)
  | opt_state_ (v : PyTree Array)
  | training_time_hours_ (v : spec_float).

Definition apply_change (s : t) (c : change) : t :=
  match c with
  | step_ v => mk v (params s) (opt_state s) (training_time_hours s)
  | params_ v => mk (step s) v (opt_state s) (training_time_hours s)
  | opt_state_ v => mk (step s) (params s) v (training_time_hours s)
  | training_time_hours_ v => mk (step s) (params s) (opt_state s) v
  end.

(** [dataclasses.replace] of [self] with [changes]: a new object of the
    same class, built from the fields of [self] with [changes] applied. *)
Definition replace (self : ref) (changes : list change) : Eff store ref :=
  s ← getattr id self;
  new (foldl apply_change s changes).

(** [next(self, new_params=None, new_opt_state=None)]; an omitted argument
    is its default, [PyNone]. [x or y] reads [y] only when [x] is falsy. *)
Definition next (self : ref) (new_params new_opt_state : PyTree Array)
  : Eff store ref :=
  step ← (n ← getattr step self; mret (n + 1)%Z);
  new_params ←
    (if py_bool new_params then mret new_params else getattr params self);
  new_opt_state ←
    (if py_bool new_opt_state then mret new_opt_state
     else getattr opt_state self);
  replace self [step_ step; params_ new_params; opt_state_ new_opt_state].
End TrainState.
End TrainState.

(** ** Auxiliaries *)

Module epy.
Section epy.
Context {V : Type}.

(** Modelled from the spec: [epy.zip_dict] belongs to the [etils] package
    and is not part of the repository. Merging requires identical key sets
    and fails otherwise: [zip_dict] of [dicts] raises [KeyError] unless all
    the dicts have the keys of the first one, and else yields, for each
    key of the first dict, the key and the tuple of the values under it:
<<
    all_keys = the set of the keys of all the dicts
    d0 = dicts[0]
    if len(all_keys) != len(d0): raise KeyError
    for key in d0: yield key, tuple(d[key] for d in dicts)
>>
*)
Definition zip_dict (dicts : list (gmap string V))
  : option (list (string * list V)) :=
  let all_keys : gset string := ⋃ (dom <$> dicts) in
  d0 ← dicts !! 0%nat;
  if decide (size all_keys ≠ size d0) then None
  else mapM (λ key, vs ← mapM (λ d : gmap string V, d !! key) dicts;
                    Some (key, vs))
            (map_to_list d0).*1.
End epy.
End epy.

Section reduce_states.
Context `{Backend}.

(** [final_state, *rest_states = states] raises on the empty tuple. *)
Definition _reduce_states_single (states : list State) : option State :=
  match states with
  | [] => None
  | final_state :: rest_states =>
      Some (foldl State_merge final_state rest_states)
  end.

Definition _reduce_states (all_states : list (gmap string State))
  : option (gmap string State) :=
  items ← epy.zip_dict all_states;
  dict_of_items <$>
    mapM (λ '(k, states), s ← _reduce_states_single states; Some (k, s))
      items.
End reduce_states.

Module Auxiliaries.
Section Auxiliaries.
Context `{Backend}.

Record t := mk {
  loss_states : gmap string State;
  metric_states : gmap string State;
  summary_kwargs : gmap string Kwargs;
}.

(** [Auxiliaries()]: every field is [default_factory=dict]. *)
Definition default : t := mk ∅ ∅ ∅.

Inductive change :=
  | loss_states_ (v : gmap string State)
  | metric_states_ (v : gmap string State)
  | summary_kwargs_ (v : gmap string Kwargs).

Definition apply_change (a : t) (c : change) : t :=
  match c with
  | loss_states_ v => mk v (metric_states a) (summary_kwargs a)
  | metric_states_ v => mk (loss_states a) v (summary_kwargs a)
  | summary_kwargs_ v => mk (loss_states a) (metric_states a) v
  end.

Definition replace (self : t) (changes : list change) : t :=
  foldl apply_change self changes.

Definition merge (self other : t) : option t :=
  ls ← _reduce_states [loss_states self; loss_states other];
  ms ← _reduce_states [metric_states self; metric_states other];
  Some (replace self [loss_states_ ls; metric_states_ ms]).
End Auxiliaries.
End Auxiliaries.

(** ** Collaborators *)

Module Context.
Section Ctx.
Context `{Backend}.

(** Modelled from the spec: [kauldron.utils.core.Context] is not among the
    sources. It is the per-call record carrying step, batch, params,
    predictions, captured intermediate activations, per-loss accumulator
    states, gradients and optimizer updates, built incrementally by
    functional replacement. *)
Record t := mk {
  step : Z;
  batch : PyTree Array;
  params : PyTree Array;
  preds : PyTree Array;
  interms : PyTree Array;
  loss_states : gmap string State;
  grads : PyTree Array;
  updates : PyTree Array;
}.

(** The constructor call, with the fields that the caller does not give
    left unset. *)
Definition new (step : Z) (batch params : PyTree Array) : t :=
  mk step batch params PyNone PyNone ∅ PyNone PyNone.

Inductive change :=
  | preds_ (v : PyTree Array)
  | interms_ (v : PyTree Array)
  | loss_states_ (v : gmap string State)
  | grads_ (v : PyTree Array)
  | updates_ (v : PyTree Array).

Definition apply_change (c : t) (ch : change) : t :=
  match ch with
  | preds_ v =>
      mk (step c) (batch c) (params c) v (interms c) (loss_states c)
         (grads c) (updates c)
  | interms_ v =>
      mk (step c) (batch c) (params c) (preds c) v (loss_states c)
         (grads c) (updates c)
  | loss_states_ v =>
      mk (step c) (batch c) (params c) (preds c) (interms c) v
         (grads c) (updates c)
  | grads_ v =>
      mk (step c) (batch c) (params c) (preds c) (interms c) (loss_states c)
         v (updates c)
  | updates_ v =>
      mk (step c) (batch c) (params c) (preds c) (interms c) (loss_states c)
         (grads c) v
  end.

Definition replace (self : t) (changes : list change) : t :=
  foldl apply_change self changes.
End Ctx.
End Context.

Module nn.
Section nn.
Context `{Backend}.

(** A flax module. [init rngs inputs method is_training_property] returns
    the variable collections; [apply variables inputs rngs
    capture_intermediates is_training_property] returns the predictions
    and the mutated collections. *)
Record Module := {
  init : Rngs → ModelInputs → option string → bool
         → gmap string (PyTree Array);
  apply : gmap string (PyTree Array) → ModelInputs → Rngs → bool → bool
          → PyTree Array * gmap string (PyTree Array);
}.
End nn.
End nn.

Module kd_metrics.
Record Metric `{Backend} := {
  get_state_from_context : Context.t → State;
}.
End kd_metrics.

Module kd_summaries.
Record Summary `{Backend} := {
  gather_kwargs : Context.t → Kwargs;
}.
End kd_summaries.

Module optax.
Record GradientTransformation `{Backend} := {
  init : PyTree Array → PyTree Array;
  update : PyTree Array → PyTree Array → PyTree Array
           → PyTree Array * PyTree Array;
}.
End optax.

Module rngs_lib.
Record RngStreams `{Backend} := {
  init_rngs : Rngs;
  train_rngs : Z → Rngs;
}.
End rngs_lib.

(** The library functions that the training step calls. [grad f x] is the
    gradient at [x] of the scalar function [f]. *)
Class Libraries `{Backend} := {
  mock_batch_from_elem_spec : ElementSpec → PyTree Array;
  get_model_inputs : nn.Module → Context.t → ModelInputs;
  compute_losses : gmap string Loss → Context.t
                   → spec_float * gmap string State;
  freeze : ElementSpec → ElementSpec;
  unfreeze : PyTree Array → PyTree Array;
  grad : (PyTree Array → option spec_float) → PyTree Array → PyTree Array;
  apply_updates : PyTree Array → PyTree Array → PyTree Array;
}.

Module jax.
Section jax.
Context `{Libraries}.

(** [jax.grad(fun, argnums=0, has_aux=True)]: [fun] returns a pair; the
    result returns the gradient of the first component together with the
    second component of the same evaluation of [fun]. *)
Definition grad_has_aux {Aux}
    (fun_ : PyTree Array → option (spec_float * Aux)) (x : PyTree Array)
  : option (PyTree Array * Aux) :=
  '(_, aux) ← fun_ x;
  Some (grad (λ p, fst <$> fun_ p) x, aux).
End jax.
End jax.

Module config_util.
(** Modelled from the spec: [kauldron.utils.config_util] is not among the
    sources. A field of a configuration object holds either a placeholder
    reference into the root configuration or a resolved collaborator;
    an operation invoked before the references are bound fails. *)
Inductive field (A : Type) :=
  | ROOT_CFG_REF (path : string)
  | Resolved (a : A).
Arguments ROOT_CFG_REF {A} path.
Arguments Resolved {A} a.

Definition is_ref {A} (f : field A) : bool :=
  match f with ROOT_CFG_REF _ => true | Resolved _ => false end.

(** The use of a field as the collaborator it stands for. *)
Definition value {A} (f : field A) : option A :=
  match f with ROOT_CFG_REF _ => None | Resolved a => Some a end.
End config_util.

(** ** ModelWithAux *)

Module ModelWithAux.
Section ModelWithAux.
Context `{Libraries}.
Import config_util.

Record t := mk {
  model : field nn.Module;
  losses : field (gmap string Loss);
  metrics : field (gmap string kd_metrics.Metric);
  summaries : field (gmap string kd_summaries.Summary);
}.

(** Modelled from the spec: the explicit assertion of
    [config_util.UpdateFromRootCfg], which fails while a field of the
    object still holds a reference into the root configuration. *)
Definition _assert_root_cfg_resolved (self : t) : option unit :=
  if is_ref (model self) || is_ref (losses self)
     || is_ref (metrics self) || is_ref (summaries self)
  then None else Some ().

Definition init (self : t) (init_rngs : Rngs) (elem_spec : ElementSpec)
    (model_method : option string) : option (PyTree Array) :=
  _ ← _assert_root_cfg_resolved self;
  let mock_batch := mock_batch_from_elem_spec elem_spec in
  let context := Context.new 0 mock_batch PyNone in
  model ← value (model self);
  let inputs := get_model_inputs model context in
  params ← nn.init model init_rngs inputs model_method true !! "params";
  let params := unfreeze params in
  Some params.

Definition forward (self : t) (params batch : PyTree Array) (rngs : Rngs)
    (step : Z) (is_training : bool) : option (spec_float * Context.t) :=
  let context := Context.new step batch params in
  model ← value (model self);
  let inputs := get_model_inputs model context in
  let '(preds, intermediates) :=
    nn.apply model {["params" := params]} inputs rngs true is_training in
  interms ← intermediates !! "intermediates";
  let context :=
    Context.replace context [Context.preds_ preds; Context.interms_ interms] in
  losses ← value (losses self);
  let '(loss_total, loss_states) := compute_losses losses context in
  Some (loss_total, Context.replace context [Context.loss_states_ loss_states]).

Definition get_aux (self : t) (context : Context.t)
    (return_losses return_metrics return_summaries : bool)
  : option Auxiliaries.t :=
  let aux := Auxiliaries.default in
  aux ←
    (if return_losses then
       Some (Auxiliaries.replace aux
               [Auxiliaries.loss_states_ (Context.loss_states context)])
     else Some aux);
  aux ←
    (if return_metrics then
       metrics ← value (metrics self);
       Some (Auxiliaries.replace aux
               [Auxiliaries.metric_states_
                  ((λ m, kd_metrics.get_state_from_context m context)
                     <$> metrics)])
     else Some aux);
  aux ←
    (if return_summaries then
       summaries ← value (summaries self);
       Some (Auxiliaries.replace aux
               [Auxiliaries.summary_kwargs_
                  (dict_of_items
                     ((λ '(k, summary),
                         (k, kd_summaries.gather_kwargs summary context))
                        <$> map_to_list summaries))])
     else Some aux);
  Some aux.
End ModelWithAux.
End ModelWithAux.

(** ** TrainStep *)

Module TrainStep.
Section TrainStep.
Context `{Libraries}.
Import config_util.

Record t := mk {
  model_with_aux : ModelWithAux.t;
  optimizer : field optax.GradientTransformation;
  rng_streams : field rngs_lib.RngStreams;
}.

(** Modelled from the spec: as [ModelWithAux._assert_root_cfg_resolved],
    for the two fields of [TrainStep] that default to a reference. *)
Definition _assert_root_cfg_resolved (self : t) : option unit :=
  if is_ref (optimizer self) || is_ref (rng_streams self)
  then None else Some ().

Definition _init (self : t) (elem_spec : ElementSpec)
    (model_method : option string) : Eff TrainState.store TrainState.ref :=
  rng_streams ← pure (value (rng_streams self));
  params ← pure (ModelWithAux.init (model_with_aux self)
                   (rngs_lib.init_rngs rng_streams) elem_spec model_method);
  optimizer ← pure (value (optimizer self));
  let opt_state := optax.init optimizer params in
  TrainState.new (TrainState.mk 0 params opt_state (S754_zero false)).

Definition init (self : t) (elem_spec : ElementSpec)
    (model_method : option string) : Eff TrainState.store TrainState.ref :=
  _ ← pure (_assert_root_cfg_resolved self);
  _init self (freeze elem_spec) model_method.

Definition step (self : t) (state : TrainState.ref) (batch : PyTree Array)
    (return_losses return_metrics return_summaries : bool)
  : Eff TrainState.store (TrainState.ref * Auxiliaries.t) :=
  params ← TrainState.getattr TrainState.params state;
  rng_streams ← pure (value (rng_streams self));
  step ← TrainState.getattr TrainState.step state;
  '(grads, context) ←
    pure (jax.grad_has_aux
            (λ params,
               ModelWithAux.forward (model_with_aux self) params batch
                 (rngs_lib.train_rngs rng_streams step) step true)
            params);
  optimizer ← pure (value (optimizer self));
  opt_state ← TrainState.getattr TrainState.opt_state state;
  let '(updates, new_opt_state) :=
    optax.update optimizer grads opt_state params in
  let new_params := apply_updates params updates in
  next_state ← TrainState.next state new_params new_opt_state;
  let context :=
    Context.replace context [Context.grads_ grads; Context.updates_ updates] in
  aux ← pure (ModelWithAux.get_aux (model_with_aux self) context
                return_losses return_metrics return_summaries);
  mret (next_state, aux).
End TrainStep.
End TrainStep.

(** ** A concrete instance

    Arrays, accumulator states and keyword bundles are integers, and the
    accumulator merge is addition. The theorems below are instantiated with
    it on concrete inputs. *)

Module Toy.
Definition backend : Backend := {|
  Array := Z;
  Array_bool := λ z, negb (z =? 0)%Z;
  Rngs := Z;
  ElementSpec := unit;
  ModelInputs := PyTree Z;
  Loss := unit;
  State := Z;
  State_merge := Z.add;
  Kwargs := Z;
|}.

#[local] Existing Instance backend.

Definition state0 : @TrainState.t backend :=
  @TrainState.mk backend 4 (Dict [("w", Leaf 1%Z)]) (Tuple [Leaf 2%Z])
    (S754_finite false 3 (-1)).

Definition aux_a : @Auxiliaries.t backend :=
  @Auxiliaries.mk backend
    {["l2" := 3%Z]} {["acc" := 10%Z; "norm" := 20%Z]} {["img" := 7%Z]}.
Definition aux_b : @Auxiliaries.t backend :=
  @Auxiliaries.mk backend
    {["l2" := 5%Z]} {["acc" := 1%Z; "norm" := 2%Z]} {["img" := 8%Z]}.
Definition aux_c : @Auxiliaries.t backend :=
  @Auxiliaries.mk backend
    {["l2" := 100%Z]} {["acc" := 200%Z; "norm" := 300%Z]} ∅.
(** An [Auxiliaries] whose metric names differ from those above. *)
Definition aux_d : @Auxiliaries.t backend :=
  @Auxiliaries.mk backend {["l2" := 5%Z]} {["acc" := 1%Z]} ∅.

Definition store0 : @TrainState.store backend := [state0].

Definition libraries : @Libraries backend := {|
  mock_batch_from_elem_spec := λ _, Tuple [Leaf 0%Z];
  get_model_inputs := λ _ c, Context.batch c;
  compute_losses := λ losses c,
    (S754_zero false, (λ _, Context.step c) <$> losses);
  freeze := id;
  unfreeze := id;
  grad := λ _ x, Dict [("w", Leaf 6%Z)];
  apply_updates := λ p u,
    match p, u with
    | Dict [(k, Leaf a)], Dict [(_, Leaf b)] => Dict [(k, Leaf (a + b)%Z)]
    | _, _ => p
    end;
|}.

Definition model : @nn.Module backend := {|
  nn.init := λ _ _ _ _, {["params" := Dict [("w", Leaf 1%Z)]]};
  nn.apply := λ variables inputs _ _ _,
    (inputs, {["intermediates" := Dict [("dense", Leaf 9%Z)]]});
|}.

Definition optimizer : @optax.GradientTransformation backend := {|
  optax.init := λ params, Tuple [params];
  optax.update := λ grads opt_state params,
    (Dict [("w", Leaf (-1)%Z)], Tuple [grads]);
|}.

Definition rng_streams : @rngs_lib.RngStreams backend := {|
  rngs_lib.init_rngs := 0%Z;
  rngs_lib.train_rngs := λ step, (step + 1)%Z;
|}.

Definition model_with_aux : @ModelWithAux.t backend :=
  ModelWithAux.mk
    (config_util.Resolved model)
    (config_util.Resolved {["l2" := ()]})
    (config_util.Resolved
       {["acc" := {| kd_metrics.get_state_from_context :=
                       λ c : @Context.t backend, (Context.step c + 10)%Z |}]})
    (config_util.Resolved
       {["img" := {| kd_summaries.gather_kwargs :=
                       λ c : @Context.t backend, 7%Z |}]}).

Definition train_step : @TrainStep.t backend :=
  TrainStep.mk model_with_aux
    (config_util.Resolved optimizer) (config_util.Resolved rng_streams).

Definition batch : PyTree Z := Tuple [Leaf 42%Z].

(** The state and the auxiliaries that one step from [state0] on [batch]
    produces, with the three flags set. *)
Definition state1 : @TrainState.t backend :=
  @TrainState.mk backend 5 (Dict [("w", Leaf 0%Z)])
    (Tuple [Dict [("w", Leaf 6%Z)]]) (S754_finite false 3 (-1)).
Definition aux1 : @Auxiliaries.t backend :=
  @Auxiliaries.mk backend {["l2" := 4%Z]} {["acc" := 14%Z]} {["img" := 7%Z]}.

(** The merge of [aux_a] with [aux_b]. *)
Definition aux_ab : @Auxiliaries.t backend :=
  @Auxiliaries.mk backend
    {["l2" := 8%Z]} {["acc" := 11%Z; "norm" := 22%Z]} {["img" := 7%Z]}.

(** The context of the forward pass at [state0] on [batch]. *)
Definition context0 : @Context.t backend :=
  @Context.mk backend 4 batch (Dict [("w", Leaf 1%Z)]) batch
    (Dict [("dense", Leaf 9%Z)]) {["l2" := 4%Z]} PyNone PyNone.

(** A model that captures no intermediates, and a [TrainStep] on it. *)
Definition model_bare : @nn.Module backend := {|
  nn.init := λ _ _ _ _, ∅;
  nn.apply := λ variables inputs _ _ _, (inputs, ∅);
|}.

Definition model_with_aux_bare : @ModelWithAux.t backend :=
  ModelWithAux.mk
    (config_util.Resolved model_bare)
    (ModelWithAux.losses model_with_aux)
    (ModelWithAux.metrics model_with_aux)
    (ModelWithAux.summaries model_with_aux).

Definition train_step_bare : @TrainStep.t backend :=
  TrainStep.mk model_with_aux_bare
    (config_util.Resolved optimizer) (config_util.Resolved rng_streams).

End Toy.

(** * Properties *)

(** ** TrainState *)

Section TrainState_lemmas.
Context `{Backend}.
Import TrainState.

Lemma next_run (σ : store) self s new_params new_opt_state :
  σ !! self = Some s →
  next self new_params new_opt_state σ
  = (Some (length σ),
     σ ++ [mk (step s + 1)
             (if py_bool new_params then new_params else params s)
             (if py_bool new_opt_state then new_opt_state else opt_state s)
             (training_time_hours s)]).
Proof.
  intros Hs. unfold next, replace, getattr, new.
  unfold mbind, Eff_bind, mret, Eff_ret. rewrite Hs. simpl.
  destruct (py_bool new_params), (py_bool new_opt_state);
    simpl; rewrite ?Hs; reflexivity.
Qed.

Lemma next_dangling (σ : store) self new_params new_opt_state :
  σ !! self = None →
  next self new_params new_opt_state σ = (None, σ).
Proof.
  intros Hs. unfold next, getattr, mbind, Eff_bind. rewrite Hs. reflexivity.
Qed.

(** A new object never overwrites one of the store. *)
Lemma lookup_new (σ : store) (s : t) r s0 :
  σ !! r = Some s0 →
  (σ ++ [s]) !! r = Some s0 ∧ (σ ++ [s]) !! length σ = Some s
  ∧ length σ ≠ r.
Proof.
  intros Hr. pose proof (lookup_lt_Some _ _ _ Hr) as Hlt.
  split; [by apply lookup_app_l_Some|]. split; [|lia].
  rewrite lookup_app_r by lia. by rewrite Nat.sub_diag.
Qed.

(** C6: [s.next(new_params, new_opt_state)] returns a state whose step is
    [s.step + 1]; a falsy argument (the default [None], an empty dict or an
    empty tuple) keeps the previous [params] (respectively [opt_state]),
    and only a truthy argument replaces it. *)
Theorem next_step_params_opt_state (σ : store) self s new_params
    new_opt_state :
  σ !! self = Some s →
  ∃ r σ' s',
    next self new_params new_opt_state σ = (Some r, σ')
    ∧ σ' !! r = Some s'
    ∧ step s' = (step s + 1)%Z
    ∧ params s' = (if py_bool new_params then new_params else params s)
    ∧ opt_state s'
      = (if py_bool new_opt_state then new_opt_state else opt_state s)
    ∧ py_bool PyNone = false
    ∧ py_bool (Dict []) = false
    ∧ py_bool (Tuple []) = false.
Proof.
  intros Hs. eexists _, _, _. rewrite (next_run _ _ _ _ _ Hs).
  split; [reflexivity|].
  split; [by apply (lookup_new _ _ _ _ Hs)|]. by repeat split.
Qed.

(** C9: [s.next(new_params, new_opt_state)] leaves [training_time_hours]
    as it is in [s], whatever the arguments. *)
Theorem next_training_time_hours (σ : store) self s new_params new_opt_state :
  σ !! self = Some s →
  ∃ r σ' s',
    next self new_params new_opt_state σ = (Some r, σ')
    ∧ σ' !! r = Some s'
    ∧ training_time_hours s' = training_time_hours s.
Proof.
  intros Hs. eexists _, _, _. rewrite (next_run _ _ _ _ _ Hs).
  split; [reflexivity|].
  split; [by apply (lookup_new _ _ _ _ Hs)|]. reflexivity.
Qed.
End TrainState_lemmas.

(** ** Merging accumulator states *)

Section dict_lemmas.
Context {V : Type}.
Implicit Types (m d : gmap string V) (ks : list string).

(** The dict built from the entries of [m] under the keys [ks]. *)
Lemma dict_of_items_lookup m ks out d k :
  Forall2 (λ key y, pair key <$> m !! key = Some y) ks out →
  foldl (λ d kv, <[kv.1 := kv.2]> d) d out !! k
  = if decide (k ∈ ks) then m !! k else d !! k.
Proof.
  intros Hout. revert d.
  induction Hout as [|key y ks out Hy _ IH]; intros d; simpl.
  - reflexivity.
  - destruct (m !! key) as [v|] eqn:Hkey; simpl in Hy; [|discriminate].
    injection Hy as <-. simpl. rewrite IH.
    destruct (decide (k = key)) as [->|Hne].
    + rewrite lookup_insert_eq.
      repeat case_decide; try done; set_solver.
    + rewrite lookup_insert_ne by done.
      repeat case_decide; try done; set_solver.
Qed.

Lemma dict_of_items_keys m ks :
  (∀ k, k ∈ ks ↔ is_Some (m !! k)) →
  dict_of_items <$> mapM (λ key, pair key <$> m !! key) ks = Some m.
Proof.
  intros Hks.
  destruct (mapM _ ks) as [out|] eqn:Hout; simpl.
  - f_equal. apply map_eq; intros k. apply mapM_Some in Hout.
    unfold dict_of_items. rewrite (dict_of_items_lookup m ks) by done.
    case_decide as Hk; [done|]. rewrite lookup_empty.
    symmetry. apply eq_None_not_Some. by rewrite <-Hks.
  - apply mapM_None in Hout. apply Exists_exists in Hout as (k & Hk & Hnone).
    apply Hks in Hk as [v Hv]. by rewrite Hv in Hnone.
Qed.

End dict_lemmas.

Lemma elem_of_keys {V} (m : gmap string V) k :
  k ∈ (map_to_list m).*1 ↔ is_Some (m !! k).
Proof.
  rewrite list_elem_of_fmap. split.
  - intros ([k' v] & -> & Hkv). apply elem_of_map_to_list in Hkv. by exists v.
  - intros [v Hv]. exists (k, v). split; [done|]. by apply elem_of_map_to_list.
Qed.

(** A dict comprehension over the items of a dict maps its values. *)
Lemma dict_of_items_map_to_list {V W} (f : V → W) (m : gmap string V) :
  dict_of_items ((λ '(k, v), (k, f v)) <$> map_to_list m) = f <$> m.
Proof.
  pose proof (dict_of_items_keys (f <$> m) (map_to_list m).*1) as Hd.
  assert (mapM (λ key, pair key <$> (f <$> m) !! key) (map_to_list m).*1
          = Some ((λ '(k, v), (k, f v)) <$> map_to_list m)) as Hm.
  { apply mapM_Some, Forall2_fmap, Forall_Forall2_diag, Forall_forall.
    intros [k v] Hkv. apply elem_of_map_to_list in Hkv. simpl.
    by rewrite lookup_fmap, Hkv. }
  rewrite Hm in Hd. simpl in Hd.
  assert (Some (dict_of_items ((λ '(k, v), (k, f v)) <$> map_to_list m))
          = Some (f <$> m)) as Heq; [|by injection Heq].
  apply Hd. intros k. rewrite lookup_fmap, fmap_is_Some. apply elem_of_keys.
Qed.

Section reduce_states_lemmas.
Context `{Backend}.
Implicit Types d : gmap string State.

(** Zipping two dicts and reducing each tuple of states visits the keys
    once, and merges the two states under each key. *)
Lemma zip_then_reduce d0 d1 (ks : list string) :
  mapM (λ key, vs ← mapM (λ d, d !! key) [d0; d1]; Some (key, vs)) ks
  ≫= mapM (λ '(k, states), s ← _reduce_states_single states; Some (k, s))
  = mapM (λ key, pair key <$> map_zip_with State_merge d0 d1 !! key) ks.
Proof.
  induction ks as [|key ks IH]; [done|].
  cbn [mapM]. rewrite map_lookup_zip_with, <-IH. clear IH.
  destruct (d0 !! key) as [v0|], (d1 !! key) as [v1|]; simpl; try done.
  by destruct (mapM _ ks) as [items|]; simpl.
Qed.

Lemma reduce_states_pair d0 d1 :
  _reduce_states [d0; d1]
  = if decide (dom d0 = dom d1)
    then Some (map_zip_with State_merge d0 d1) else None.
Proof.
  unfold _reduce_states, epy.zip_dict.
  cbn [lookup list_lookup mbind option_bind].
  assert (⋃ (dom <$> [d0; d1]) = dom d0 ∪ dom d1) as -> by set_solver.
  rewrite <-(size_dom (D := gset string) d0).
  destruct (decide (size (dom d0 ∪ dom d1) ≠ size (dom d0))) as [Hsz|Hsz].
  { rewrite decide_False; [done|]. intros Hdom. apply Hsz.
    f_equal. set_solver. }
  apply dec_stable in Hsz.
  assert (dom d1 ⊆ dom d0) as Hsub.
  { assert (dom d0 = dom d0 ∪ dom d1) as Heq; [|set_solver].
    apply set_subseteq_size_eq; [set_solver|lia]. }
  match goal with
  | |- ?x ≫= _ = _ =>
      transitivity
        (dict_of_items <$>
           (x ≫= mapM (λ '(k, states),
                        s ← _reduce_states_single states; Some (k, s))));
      [by destruct x|]
  end.
  rewrite zip_then_reduce.
  case_decide as Hdom.
  - apply dict_of_items_keys. intros k.
    rewrite elem_of_keys, map_lookup_zip_with.
    destruct (d0 !! k) as [v0|] eqn:Hk0; simpl; [|by rewrite !is_Some_alt].
    assert (k ∈ dom d1) as [v1 ->]%elem_of_dom; [|done].
    rewrite <-Hdom. apply elem_of_dom. by rewrite Hk0.
  - destruct (mapM _ _) as [out|] eqn:Hout; [|done]. exfalso.
    apply Hdom, set_eq. intros k. split; [|by apply Hsub].
    intros [v0 Hk0]%elem_of_dom.
    assert (is_Some (mapM (λ key, pair key <$>
              map_zip_with State_merge d0 d1 !! key) (map_to_list d0).*1))
      as Hall%mapM_is_Some_1 by (by rewrite Hout).
    rewrite Forall_forall in Hall. specialize (Hall k).
    rewrite elem_of_keys, Hk0 in Hall.
    destruct Hall as [y Hy]; [done|]. simpl in Hy.
    rewrite map_lookup_zip_with, Hk0 in Hy. simpl in Hy.
    apply elem_of_dom. by destruct (d1 !! k).
Qed.
End reduce_states_lemmas.

(** ** Auxiliaries *)

Section Auxiliaries_lemmas.
Context `{Backend}.
Import Auxiliaries.

Lemma merge_unfold (a b : t) :
  merge a b
  = if decide (dom (loss_states a) = dom (loss_states b)
               ∧ dom (metric_states a) = dom (metric_states b))
    then Some (mk (map_zip_with State_merge (loss_states a) (loss_states b))
                  (map_zip_with State_merge (metric_states a)
                     (metric_states b))
                  (summary_kwargs a))
    else None.
Proof.
  unfold merge. rewrite !reduce_states_pair.
  repeat case_decide; simpl; try done; naive_solver.
Qed.

(** C4: when the key sets of the two [loss_states] dicts, or of the two
    [metric_states] dicts, differ, [a.merge(b)] raises. *)
Theorem merge_key_mismatch (a b : t) :
  dom (loss_states a) ≠ dom (loss_states b)
  ∨ dom (metric_states a) ≠ dom (metric_states b) →
  merge a b = None.
Proof.
  intros Hne. rewrite merge_unfold. case_decide; [naive_solver|done].
Qed.

Lemma merge_Some (a b : t) :
  dom (loss_states a) = dom (loss_states b) →
  dom (metric_states a) = dom (metric_states b) →
  merge a b
  = Some (mk (map_zip_with State_merge (loss_states a) (loss_states b))
             (map_zip_with State_merge (metric_states a) (metric_states b))
             (summary_kwargs a)).
Proof. intros. rewrite merge_unfold. by rewrite decide_True. Qed.

Lemma map_zip_with_assoc (d0 d1 d2 : gmap string State) :
  (∀ x y z, State_merge (State_merge x y) z
            = State_merge x (State_merge y z)) →
  map_zip_with State_merge (map_zip_with State_merge d0 d1) d2
  = map_zip_with State_merge d0 (map_zip_with State_merge d1 d2).
Proof.
  intros Hassoc. apply map_eq; intros k. rewrite !map_lookup_zip_with.
  destruct (d0 !! k), (d1 !! k), (d2 !! k); simpl; by rewrite ?Hassoc.
Qed.

Lemma dom_map_zip_with_same (d0 d1 : gmap string State) :
  dom d0 = dom d1 → dom (map_zip_with State_merge d0 d1) = dom d0.
Proof. intros Hdom. rewrite dom_map_zip_with_L. set_solver. Qed.

(** C5: for [a], [b], [c] with the same loss names and the same metric
    names, and an associative per-key accumulator merge, both
    [(a.merge(b)).merge(c)] and [a.merge(b.merge(c))] return, with equal
    [loss_states] and equal [metric_states]. *)
Theorem merge_assoc (a b c : t) :
  (∀ x y z, State_merge (State_merge x y) z
            = State_merge x (State_merge y z)) →
  dom (loss_states a) = dom (loss_states b) →
  dom (loss_states b) = dom (loss_states c) →
  dom (metric_states a) = dom (metric_states b) →
  dom (metric_states b) = dom (metric_states c) →
  ∃ ab bc l r,
    merge a b = Some ab ∧ merge ab c = Some l
    ∧ merge b c = Some bc ∧ merge a bc = Some r
    ∧ loss_states l = loss_states r
    ∧ metric_states l = metric_states r.
Proof.
  intros Hassoc Hl1 Hl2 Hm1 Hm2. eexists _, _, _, _.
  split; [by apply merge_Some|].
  split; [apply merge_Some; simpl; rewrite dom_map_zip_with_same; congruence|].
  split; [by apply merge_Some|].
  split; [apply merge_Some; simpl; rewrite dom_map_zip_with_same; congruence|].
  simpl. by rewrite !map_zip_with_assoc.
Qed.

(** C10: for [a] and [b] with the same loss names and the same metric
    names, [a.merge(b)] has the [summary_kwargs] of [a] and [b.merge(a)]
    those of [b], so that the two differ there whenever the bundles of
    [a] and [b] differ. *)
Theorem merge_summary_kwargs_left (a b : t) :
  dom (loss_states a) = dom (loss_states b) →
  dom (metric_states a) = dom (metric_states b) →
  ∃ ab ba,
    merge a b = Some ab ∧ merge b a = Some ba
    ∧ summary_kwargs ab = summary_kwargs a
    ∧ summary_kwargs ba = summary_kwargs b
    ∧ (summary_kwargs a ≠ summary_kwargs b →
       summary_kwargs ab ≠ summary_kwargs ba).
Proof.
  intros Hl Hm. eexists _, _.
  split; [by apply merge_Some|]. split; [by apply merge_Some|]. done.
Qed.

End Auxiliaries_lemmas.

(** Instances of the theorems on the concrete [Auxiliaries] of [Toy]. *)

Lemma merge_key_mismatch_witness :
  (dom (Auxiliaries.loss_states Toy.aux_a)
     ≠ dom (Auxiliaries.loss_states Toy.aux_d)
   ∨ dom (Auxiliaries.metric_states Toy.aux_a)
     ≠ dom (Auxiliaries.metric_states Toy.aux_d))
  ∧ Auxiliaries.merge Toy.aux_a Toy.aux_d = None.
Proof.
  assert (dom (Auxiliaries.metric_states Toy.aux_a)
          ≠ dom (Auxiliaries.metric_states Toy.aux_d)) as Hne.
  { vm_compute. discriminate. }
  split; [by right|].
  apply (@merge_key_mismatch Toy.backend Toy.aux_a Toy.aux_d). by right.
Defined.

Lemma merge_assoc_witness :
  ∃ ab bc l r,
    Auxiliaries.merge Toy.aux_a Toy.aux_b = Some ab
    ∧ Auxiliaries.merge ab Toy.aux_c = Some l
    ∧ Auxiliaries.merge Toy.aux_b Toy.aux_c = Some bc
    ∧ Auxiliaries.merge Toy.aux_a bc = Some r
    ∧ Auxiliaries.loss_states l = Auxiliaries.loss_states r
    ∧ Auxiliaries.metric_states l = Auxiliaries.metric_states r.
Proof.
  apply (@merge_assoc Toy.backend Toy.aux_a Toy.aux_b Toy.aux_c).
  - intros x y z. simpl. lia.
  - vm_compute. reflexivity.
  - vm_compute. reflexivity.
  - vm_compute. reflexivity.
  - vm_compute. reflexivity.
Defined.

Lemma merge_summary_kwargs_left_witness :
  ∃ ab ba,
    Auxiliaries.merge Toy.aux_a Toy.aux_b = Some ab
    ∧ Auxiliaries.merge Toy.aux_b Toy.aux_a = Some ba
    ∧ Auxiliaries.summary_kwargs ab = Auxiliaries.summary_kwargs Toy.aux_a
    ∧ Auxiliaries.summary_kwargs ba = Auxiliaries.summary_kwargs Toy.aux_b
    ∧ (Auxiliaries.summary_kwargs Toy.aux_a
         ≠ Auxiliaries.summary_kwargs Toy.aux_b →
       Auxiliaries.summary_kwargs ab ≠ Auxiliaries.summary_kwargs ba).
Proof.
  apply (@merge_summary_kwargs_left Toy.backend Toy.aux_a Toy.aux_b).
  - vm_compute. reflexivity.
  - vm_compute. reflexivity.
Defined.



(** ** ModelWithAux *)

Section ModelWithAux_lemmas.
Context `{Libraries}.
Import config_util ModelWithAux.

(** The context of a forward pass is built at the step, batch and params
    that the pass is given; gradients and updates are not set yet. *)
Lemma forward_context self params batch rngs step is_training loss context :
  forward self params batch rngs step is_training = Some (loss, context) →
  Context.step context = step
  ∧ Context.batch context = batch
  ∧ Context.params context = params.
Proof.
  unfold forward. intros Hf.
  destruct (value (model self)) as [m|]; [|done]. simpl in Hf.
  destruct (nn.apply m _ _ _ _ _) as [preds intermediates].
  destruct (intermediates !! "intermediates") as [interms|]; [|done].
  simpl in Hf. destruct (value (losses self)) as [ls|]; [|done].
  simpl in Hf. destruct (compute_losses ls _) as [loss_total loss_states].
  by injection Hf as <- <-.
Qed.

Lemma get_aux_unfold self context return_losses return_metrics
    return_summaries :
  get_aux self context return_losses return_metrics return_summaries
  = (ms ← (if return_metrics then
             fmap (λ m, kd_metrics.get_state_from_context m context)
               <$> value (metrics self)
           else Some ∅);
     ss ← (if return_summaries then
             fmap (λ s, kd_summaries.gather_kwargs s context)
               <$> value (summaries self)
           else Some ∅);
     Some (Auxiliaries.mk
             (if return_losses then Context.loss_states context else ∅)
             ms ss)).
Proof.
  unfold get_aux.
  destruct return_losses, return_metrics, return_summaries; simpl;
    destruct (value (metrics self)), (value (summaries self)); simpl;
    by rewrite ?dict_of_items_map_to_list.
Qed.


(** C7: [get_aux] projects the context: [loss_states] is the stored loss
    states of the context when [return_losses] and empty otherwise,
    [metric_states] holds the state of every registered metric when
    [return_metrics] and is empty otherwise, [summary_kwargs] holds the
    keyword bundle of every registered summary when [return_summaries] and
    is empty otherwise; with the three flags false the three mappings are
    empty. *)
Theorem get_aux_projection model losses ms ss context
    (return_losses return_metrics return_summaries : bool) :
  get_aux (mk model losses (Resolved ms) (Resolved ss)) context
    return_losses return_metrics return_summaries
  = Some (Auxiliaries.mk
            (if return_losses then Context.loss_states context else ∅)
            (if return_metrics then
               (λ m, kd_metrics.get_state_from_context m context) <$> ms
             else ∅)
            (if return_summaries then
               (λ s, kd_summaries.gather_kwargs s context) <$> ss
             else ∅))
  ∧ ∀ self, get_aux self context false false false
            = Some (Auxiliaries.mk ∅ ∅ ∅).
Proof.
  split; [|done]. rewrite get_aux_unfold. simpl.
  by destruct return_metrics, return_summaries.
Qed.
End ModelWithAux_lemmas.

(** ** TrainStep *)

Section TrainStep_lemmas.
Context `{Libraries}.
Import config_util TrainStep.

(** Either [step] raises before it builds anything, or the forward pass
    at the input state succeeded and [step] has allocated the next state;
    the auxiliaries are then extracted from the context of that pass. *)
Lemma step_cases self (σ : TrainState.store) state batch
    return_losses return_metrics return_summaries :
  step self state batch return_losses return_metrics return_summaries σ
  = (None, σ)
  ∨ ∃ s rngs opt loss context,
      let fwd := λ params,
        ModelWithAux.forward (model_with_aux self) params batch
          (rngs_lib.train_rngs rngs (TrainState.step s)) (TrainState.step s)
          true in
      let grads := grad (λ p, fst <$> fwd p) (TrainState.params s) in
      let upd :=
        optax.update opt grads (TrainState.opt_state s)
          (TrainState.params s) in
      let new_params := apply_updates (TrainState.params s) upd.1 in
      σ !! state = Some s
      ∧ rng_streams self = Resolved rngs
      ∧ optimizer self = Resolved opt
      ∧ fwd (TrainState.params s) = Some (loss, context)
      ∧ step self state batch return_losses return_metrics return_summaries σ
        = (pair (length σ) <$>
             ModelWithAux.get_aux (model_with_aux self)
               (Context.replace context
                  [Context.grads_ grads; Context.updates_ upd.1])
               return_losses return_metrics return_summaries,
           σ ++ [TrainState.mk (TrainState.step s + 1)
                   (if py_bool new_params then new_params
                    else TrainState.params s)
                   (if py_bool upd.2 then upd.2 else TrainState.opt_state s)
                   (TrainState.training_time_hours s)]).
Proof.
  remember (step self state batch return_losses return_metrics
              return_summaries σ) as r eqn:Hr.
  unfold step, TrainState.getattr, jax.grad_has_aux, pure in Hr.
  unfold mbind at 1, Eff_bind at 1 in Hr.
  destruct (σ !! state) as [s|] eqn:Hs; [|by left].
  cbn [fmap option_fmap option_map] in Hr.
  unfold mbind at 1, Eff_bind at 1 in Hr.
  destruct (rng_streams self) as [?|rngs] eqn:Hrngs; [by left|].
  cbn [value] in Hr.
  unfold mbind at 1, Eff_bind at 1 in Hr. rewrite Hs in Hr.
  cbn [fmap option_fmap option_map] in Hr.
  unfold mbind at 1, Eff_bind at 1 in Hr.
  destruct (ModelWithAux.forward _ _ _ _ _ _) as [[loss context]|] eqn:Hfwd;
    [|by left].
  cbn [mbind option_bind] in Hr.
  unfold mbind at 1, Eff_bind at 1 in Hr.
  destruct (optimizer self) as [?|opt] eqn:Hopt; [by left|].
  cbn [value] in Hr.
  unfold mbind at 1, Eff_bind at 1 in Hr. rewrite Hs in Hr.
  cbn [fmap option_fmap option_map] in Hr.
  right. exists s, rngs, opt, loss, context. cbv zeta.
  do 4 (split; [done|]).
  destruct (optax.update opt _ _ _) as [updates new_opt_state].
  cbn [fst snd].
  unfold mbind at 1, Eff_bind at 1 in Hr. rewrite (next_run _ _ _ _ _ Hs) in Hr.
  unfold mbind, Eff_bind in Hr. rewrite Hr.
  by destruct (ModelWithAux.get_aux _ _ _ _ _).
Qed.


(** A call of [step] only adds objects to the store. *)
Lemma step_store self (σ : TrainState.store) state batch
    return_losses return_metrics return_summaries s :
  σ !! state = Some s →
  (step self state batch return_losses return_metrics return_summaries σ).2
    !! state = Some s.
Proof.
  intros Hs.
  destruct (step_cases self σ state batch return_losses return_metrics
              return_summaries)
    as [->|(s' & rngs & opt & loss & context & _ & _ & _ & _ & ->)];
    [done|].
  by apply lookup_app_l_Some.
Qed.



(** C2: the auxiliaries that [step] returns are [get_aux] of the context
    of the forward pass at the params of the input state, the pass whose
    gradients [step] uses, extended with these gradients and with the
    updates of the optimizer; that context holds the params of the input
    state, not those of the next one. *)
Theorem step_aux_pre_update self (σ : TrainState.store) state s batch
    return_losses return_metrics return_summaries next_state aux σ' :
  σ !! state = Some s →
  step self state batch return_losses return_metrics return_summaries σ
  = (Some (next_state, aux), σ') →
  ∃ rngs opt loss context,
    let fwd := λ params,
      ModelWithAux.forward (model_with_aux self) params batch
        (rngs_lib.train_rngs rngs (TrainState.step s)) (TrainState.step s)
        true in
    let grads := grad (λ p, fst <$> fwd p) (TrainState.params s) in
    let updates :=
      (optax.update opt grads (TrainState.opt_state s)
         (TrainState.params s)).1 in
    let pre_update :=
      Context.replace context
        [Context.grads_ grads; Context.updates_ updates] in
    rng_streams self = Resolved rngs
    ∧ optimizer self = Resolved opt
    ∧ fwd (TrainState.params s) = Some (loss, context)
    ∧ ModelWithAux.get_aux (model_with_aux self) pre_update
        return_losses return_metrics return_summaries = Some aux
    ∧ Context.params pre_update = TrainState.params s
    ∧ Context.grads pre_update = grads
    ∧ Context.updates pre_update = updates.
Proof.
  intros Hs Hstep.
  destruct (step_cases self σ state batch return_losses return_metrics
              return_summaries)
    as [Hfail|(s0 & rngs & opt & loss & context & Hs0 & Hrngs & Hopt
               & Hfwd & Hrun)].
  { rewrite Hfail in Hstep. discriminate. }
  rewrite Hs in Hs0. injection Hs0 as <-.
  exists rngs, opt, loss, context. cbv zeta.
  do 3 (split; [done|]).
  rewrite Hrun in Hstep.
  destruct (ModelWithAux.get_aux _ _ _ _ _) as [aux0|]; [|discriminate].
  injection Hstep as _ <- _. split; [done|].
  apply forward_context in Hfwd as (_ & _ & Hparams).
  done.
Qed.

Lemma init_unresolved self (σ : TrainState.store) elem_spec model_method :
  _assert_root_cfg_resolved self = None →
  init self elem_spec model_method σ = (None, σ).
Proof.
  intros Hres. unfold init, pure, mbind, Eff_bind. by rewrite Hres.
Qed.

(** C8: [init] returns a [TrainState] at step 0 with zero training time,
    whose params are those of [ModelWithAux.init] under the init RNG
    stream and whose optimizer state is the optimizer's [init] of these
    params. The collaborators of the [TrainStep] are resolved and the
    initialization of the model succeeds. *)
Theorem init_initial_state self (σ : TrainState.store) elem_spec model_method
    rngs opt params :
  rng_streams self = Resolved rngs →
  optimizer self = Resolved opt →
  ModelWithAux.init (model_with_aux self) (rngs_lib.init_rngs rngs)
    (freeze elem_spec) model_method = Some params →
  ∃ state σ' s,
    init self elem_spec model_method σ = (Some state, σ')
    ∧ σ' !! state = Some s
    ∧ TrainState.step s = 0%Z
    ∧ TrainState.training_time_hours s = S754_zero false
    ∧ TrainState.params s = params
    ∧ TrainState.opt_state s = optax.init opt params.
Proof.
  intros Hrngs Hopt Hinit. eexists _, _, _.
  unfold init, _init, _assert_root_cfg_resolved, pure, TrainState.new.
  unfold mbind, Eff_bind. rewrite Hrngs, Hopt. simpl. rewrite Hinit.
  split; [reflexivity|].
  split; [by apply list_lookup_middle|]. done.
Qed.
End TrainStep_lemmas.

(** Instances of the theorems on the concrete store and step of [Toy]. *)

Section Toy_instances.
#[local] Existing Instance Toy.backend.
#[local] Existing Instance Toy.libraries.

Lemma next_step_params_opt_state_witness :
Toy.store0 !! 0%nat = Some Toy.state0
∧ ∃ r σ' s',
    TrainState.next 0%nat (Dict []) (Tuple [Leaf 5%Z]) Toy.store0
    = (Some r, σ')
    ∧ σ' !! r = Some s'
    ∧ TrainState.step s' = (TrainState.step Toy.state0 + 1)%Z
    ∧ TrainState.params s' = TrainState.params Toy.state0
    ∧ TrainState.opt_state s' = Tuple [Leaf 5%Z]
    ∧ py_bool PyNone = false
    ∧ py_bool (Dict []) = false
    ∧ py_bool (Tuple []) = false.
Proof.
split; [reflexivity|].
apply (next_step_params_opt_state Toy.store0 0%nat Toy.state0
         (Dict []) (Tuple [Leaf 5%Z])).
reflexivity.
Defined.

Lemma next_training_time_hours_witness :
Toy.store0 !! 0%nat = Some Toy.state0
∧ ∃ r σ' s',
    TrainState.next 0%nat (Dict [("w", Leaf 3%Z)]) PyNone Toy.store0
    = (Some r, σ')
    ∧ σ' !! r = Some s'
    ∧ TrainState.training_time_hours s'
      = TrainState.training_time_hours Toy.state0.
Proof.
split; [reflexivity|].
apply (next_training_time_hours Toy.store0 0%nat Toy.state0
         (Dict [("w", Leaf 3%Z)]) PyNone).
reflexivity.
Defined.


Lemma step_aux_pre_update_witness :
TrainStep.step Toy.train_step 0%nat Toy.batch
  true true true Toy.store0
= (Some (1%nat, Toy.aux1), Toy.store0 ++ [Toy.state1])
∧ ∃ rngs opt loss context,
    let fwd := λ params,
      ModelWithAux.forward Toy.model_with_aux
        params Toy.batch (rngs_lib.train_rngs rngs 4) 4 true in
    let grads :=
      grad (λ p, fst <$> fwd p)
        (TrainState.params Toy.state0) in
    let updates :=
      (optax.update opt grads (TrainState.opt_state Toy.state0)
         (TrainState.params Toy.state0)).1 in
    let pre_update :=
      Context.replace context
        [Context.grads_ grads; Context.updates_ updates] in
    TrainStep.rng_streams Toy.train_step = config_util.Resolved rngs
    ∧ TrainStep.optimizer Toy.train_step = config_util.Resolved opt
    ∧ fwd (TrainState.params Toy.state0) = Some (loss, context)
    ∧ ModelWithAux.get_aux Toy.model_with_aux
        pre_update true true true = Some Toy.aux1
    ∧ Context.params pre_update = TrainState.params Toy.state0
    ∧ Context.grads pre_update = grads
    ∧ Context.updates pre_update = updates.
Proof.
assert (TrainStep.step Toy.train_step 0%nat
          Toy.batch true true true Toy.store0
        = (Some (1%nat, Toy.aux1), Toy.store0 ++ [Toy.state1])) as Hstep.
{ vm_compute. reflexivity. }
split; [exact Hstep|].
apply (step_aux_pre_update Toy.train_step
         Toy.store0 0%nat Toy.state0 Toy.batch true true true
         1%nat Toy.aux1 (Toy.store0 ++ [Toy.state1])).
- reflexivity.
- exact Hstep.
Defined.

Lemma init_initial_state_witness :
∃ state σ' s,
  TrainStep.init Toy.train_step () None Toy.store0
  = (Some state, σ')
  ∧ σ' !! state = Some s
  ∧ TrainState.step s = 0%Z
  ∧ TrainState.training_time_hours s = S754_zero false
  ∧ TrainState.params s = Dict [("w", Leaf 1%Z)]
  ∧ TrainState.opt_state s
    = optax.init Toy.optimizer (Dict [("w", Leaf 1%Z)]).
Proof.
apply (init_initial_state Toy.train_step
         Toy.store0 () None Toy.rng_streams Toy.optimizer
         (Dict [("w", Leaf 1%Z)])).
- reflexivity.
- reflexivity.
- vm_compute. reflexivity.
Defined.
End Toy_instances.

(** * Further properties *)

(** ** Reduction of accumulator states *)

Section reduce_states_more.
Context `{Backend}.
Implicit Types d : gmap string State.

(** X1: [_reduce_states_single] raises on the empty tuple, and otherwise is
    a left fold: the last state of the tuple is merged last, into the
    reduction of the states before it (a one-element tuple reduces to its
    element, with no call of [merge]). *)
Theorem reduce_states_single_snoc (states : list State) (x : State) :
  _reduce_states_single [] = None
  ∧ _reduce_states_single (states ++ [x])
    = Some (match _reduce_states_single states with
            | Some acc => State_merge acc x
            | None => x
            end).
Proof.
  split; [done|]. destruct states as [|s rest]; [done|].
  simpl. by rewrite foldl_snoc.
Qed.

Lemma foldl_merge_assoc (a t : State) (rest : list State) :
  (∀ x y z, State_merge (State_merge x y) z
            = State_merge x (State_merge y z)) →
  foldl State_merge (State_merge a t) rest
  = State_merge a (foldl State_merge t rest).
Proof.
  intros Hassoc. revert t. induction rest as [|x rest IH]; intros t; [done|].
  simpl. by rewrite Hassoc, IH.
Qed.

(** X2: when the merge of accumulator states is associative, reducing a
    tuple of states in two parts and merging the two results gives the
    reduction of the whole tuple. *)
Theorem reduce_states_single_app (l1 l2 : list State) (a b : State) :
  (∀ x y z, State_merge (State_merge x y) z
            = State_merge x (State_merge y z)) →
  _reduce_states_single l1 = Some a →
  _reduce_states_single l2 = Some b →
  _reduce_states_single (l1 ++ l2) = Some (State_merge a b).
Proof.
  intros Hassoc H1 H2.
  destruct l1 as [|s r1]; [done|]. destruct l2 as [|t r2]; [done|].
  simpl in *. injection H1 as <-. injection H2 as <-.
  by rewrite foldl_app, <-foldl_merge_assoc.
Qed.

(** Zipping any number of dicts and reducing each tuple of states visits
    the keys once, and reduces the states found under each key. *)
Lemma zip_then_reduce_all (dicts : list (gmap string State))
    (ks : list string) :
  mapM (λ key, vs ← mapM (λ d, d !! key) dicts; Some (key, vs)) ks
  ≫= mapM (λ '(k, states), s ← _reduce_states_single states; Some (k, s))
  = mapM (λ key, pair key <$>
                   (mapM (λ d, d !! key) dicts ≫= _reduce_states_single)) ks.
Proof.
  induction ks as [|key ks IH]; [done|].
  cbn [mapM]. rewrite <-IH. clear IH.
  destruct (mapM (λ d, d !! key) dicts) as [vs|]; simpl; [|done].
  destruct (mapM _ ks) as [items|]; simpl;
    by destruct (_reduce_states_single vs).
Qed.

(** The keys that [zip_dict] collects are those of the first dict exactly
    when every other dict has no key outside of it. *)
Lemma all_keys_size d0 (ds : list (gmap string State)) :
  size (⋃ (dom <$> d0 :: ds) : gset string) = size d0 →
  Forall (λ d, dom d ⊆ dom d0) ds.
Proof.
  intros Hsz. rewrite <-(size_dom (D := gset string) d0) in Hsz.
  assert (dom d0 = ⋃ (dom <$> d0 :: ds)) as Heq.
  { apply set_subseteq_size_eq; [|lia]. simpl. set_solver. }
  apply Forall_forall. intros d Hd. rewrite Heq. simpl.
  intros k Hk. apply elem_of_union_r, elem_of_union_list.
  exists (dom d). split; [|done]. by apply list_elem_of_fmap_2.
Qed.

Lemma all_keys_same d0 (ds : list (gmap string State)) :
  Forall (λ d, dom d = dom d0) ds →
  (⋃ (dom <$> d0 :: ds) : gset string) = dom d0.
Proof.
  intros Hds. simpl. apply set_eq. intros k. rewrite elem_of_union.
  split; [|by left]. intros [Hk|Hk]; [done|].
  apply elem_of_union_list in Hk as (X & HX & Hk).
  apply list_elem_of_fmap in HX as (d & -> & Hd).
  rewrite Forall_forall in Hds. by rewrite <-(Hds d Hd).
Qed.

(** X3: [_reduce_states] of dicts that all have the keys of the first one
    returns a dict with these keys, in which each key holds the left fold of
    [merge] over the states under that key, in the order of the arguments;
    a single dict reduces to itself. *)
Theorem reduce_states_same_keys d0 (ds : list (gmap string State)) :
  Forall (λ d, dom d = dom d0) ds →
  ∃ m,
    _reduce_states (d0 :: ds) = Some m
    ∧ dom m = dom d0
    ∧ (∀ k, m !! k
            = (v0 ← d0 !! k; vs ← mapM (λ d, d !! k) ds;
               Some (foldl State_merge v0 vs)))
    ∧ (ds = [] → m = d0).
Proof.
  intros Hds.
  set (m := map_imap (λ k v0, vs ← mapM (λ d : gmap string State, d !! k) ds;
                              Some (foldl State_merge v0 vs)) d0).
  assert (∀ k, m !! k
               = (v0 ← d0 !! k; vs ← mapM (λ d, d !! k) ds;
                  Some (foldl State_merge v0 vs))) as Hm.
  { intros k. unfold m. by rewrite map_lookup_imap. }
  assert (∀ k, is_Some (m !! k) ↔ is_Some (d0 !! k)) as Hdom.
  { intros k. rewrite Hm. destruct (d0 !! k) as [v0|] eqn:Hk0; simpl;
      [|by rewrite !is_Some_alt].
    assert (is_Some (mapM (λ d : gmap string State, d !! k) ds)) as [vs ->];
      [|by rewrite !is_Some_alt].
    apply mapM_is_Some_2. eapply Forall_impl; [exact Hds|].
    intros d Hd. simpl. apply elem_of_dom. rewrite Hd.
    apply elem_of_dom. by rewrite Hk0. }
  exists m. split; [|split; [|split]].
  - unfold _reduce_states, epy.zip_dict.
    cbn [lookup list_lookup mbind option_bind].
    rewrite all_keys_same by done.
    rewrite decide_False by (by rewrite size_dom; intros []).
    match goal with
    | |- ?x ≫= _ = _ =>
        transitivity
          (dict_of_items <$>
             (x ≫= mapM (λ '(k, states),
                          s ← _reduce_states_single states; Some (k, s))));
        [by destruct x|]
    end.
    rewrite zip_then_reduce_all.
    rewrite <-(dict_of_items_keys m (map_to_list d0).*1).
    + f_equal. apply mapM_ext. intros k. f_equal. rewrite Hm.
      cbn [mapM]. destruct (d0 !! k); simpl; [|done].
      by destruct (mapM _ ds).
    + intros k. by rewrite elem_of_keys, Hdom.
  - apply set_eq. intros k. by rewrite !elem_of_dom, Hdom.
  - exact Hm.
  - intros ->. apply map_eq. intros k. rewrite Hm. simpl.
    by destruct (d0 !! k).
Qed.

(** X4: [_reduce_states] raises as soon as one of the dicts does not have
    exactly the keys of the first one. *)
Theorem reduce_states_key_mismatch d0 (ds : list (gmap string State)) :
  Exists (λ d, dom d ≠ dom d0) ds →
  _reduce_states (d0 :: ds) = None.
Proof.
  intros Hex. unfold _reduce_states, epy.zip_dict.
  cbn [lookup list_lookup mbind option_bind].
  case_decide as Hsz; [done|]. apply all_keys_size in Hsz.
  match goal with
  | |- ?x ≫= _ = _ =>
      transitivity
        (dict_of_items <$>
           (x ≫= mapM (λ '(k, states),
                        s ← _reduce_states_single states; Some (k, s))));
      [by destruct x|]
  end.
  rewrite zip_then_reduce_all.
  destruct (mapM _ _) as [out|] eqn:Hout; [|done]. exfalso.
  apply Exists_exists in Hex as (d & Hd & Hne). apply Hne.
  rewrite Forall_forall in Hsz. apply set_eq. intros k.
  split; [by apply Hsz|]. intros [v0 Hk0]%elem_of_dom.
  assert (is_Some (mapM (λ key, pair key <$>
            (mapM (λ d : gmap string State, d !! key) (d0 :: ds)
             ≫= _reduce_states_single)) (map_to_list d0).*1))
    as Hall%mapM_is_Some_1 by (by rewrite Hout).
  rewrite Forall_forall in Hall. specialize (Hall k).
  rewrite elem_of_keys, Hk0 in Hall.
  destruct Hall as [y Hy]; [done|]. simpl in Hy.
  rewrite Hk0 in Hy. simpl in Hy.
  assert (is_Some (mapM (λ d : gmap string State, d !! k) ds))
    as Hvs%mapM_is_Some_1 by (by destruct (mapM _ ds)).
  rewrite Forall_forall in Hvs. apply elem_of_dom. by apply (Hvs d).
Qed.
End reduce_states_more.

(** ** Auxiliaries *)

Section Auxiliaries_more.
Context `{Backend}.
Import Auxiliaries.

(** X5: when [a.merge(b)] returns, its loss and metric dicts have the keys
    of [a] (which are those of [b]), and the state under a key is the merge
    of the state of [a] with the state of [b], [a]'s state being the
    receiver. *)
Theorem merge_lookup (a b ab : t) :
  merge a b = Some ab →
  dom (loss_states ab) = dom (loss_states a)
  ∧ dom (loss_states ab) = dom (loss_states b)
  ∧ dom (metric_states ab) = dom (metric_states a)
  ∧ dom (metric_states ab) = dom (metric_states b)
  ∧ (∀ k, loss_states ab !! k
          = (x ← loss_states a !! k; y ← loss_states b !! k;
             Some (State_merge x y)))
  ∧ (∀ k, metric_states ab !! k
          = (x ← metric_states a !! k; y ← metric_states b !! k;
             Some (State_merge x y))).
Proof.
  rewrite merge_unfold. case_decide as Hdom; [|done].
  destruct Hdom as [Hl Hm]. intros [= <-]. simpl.
  rewrite !dom_map_zip_with_same by done.
  repeat split; try done; intros k; apply map_lookup_zip_with.
Qed.

(** X6: when the merge of accumulator states is commutative, [a.merge(b)]
    and [b.merge(a)] have the same loss states and the same metric
    states. *)
Theorem merge_comm (a b : t) :
  (∀ x y, State_merge x y = State_merge y x) →
  dom (loss_states a) = dom (loss_states b) →
  dom (metric_states a) = dom (metric_states b) →
  ∃ ab ba,
    merge a b = Some ab ∧ merge b a = Some ba
    ∧ loss_states ab = loss_states ba
    ∧ metric_states ab = metric_states ba.
Proof.
  intros Hcomm Hl Hm. eexists _, _.
  split; [by apply merge_Some|]. split; [by apply merge_Some|].
  simpl. split; apply map_eq; intros k; rewrite !map_lookup_zip_with.
  - destruct (loss_states a !! k) as [x|], (loss_states b !! k) as [y|];
      simpl; try done. by rewrite (Hcomm x y).
  - destruct (metric_states a !! k) as [x|], (metric_states b !! k) as [y|];
      simpl; try done. by rewrite (Hcomm x y).
Qed.

(** X7: the empty [Auxiliaries()] is no unit of [merge]: merging it with an
    [Auxiliaries] that has a loss state or a metric state raises, on either
    side; only two empty ones merge, into the empty one. *)
Theorem merge_default (a : t) :
  loss_states a ≠ ∅ ∨ metric_states a ≠ ∅ →
  merge default a = None ∧ merge a default = None
  ∧ merge default default = Some default.
Proof.
  intros Hne.
  assert (dom (loss_states a) ≠ ∅ ∨ dom (metric_states a) ≠ ∅) as Hdom.
  { destruct Hne as [Hne|Hne]; [left|right]; by rewrite dom_empty_iff_L. }
  split; [|split].
  - rewrite merge_unfold. simpl. rewrite !dom_empty_L.
    case_decide; [naive_solver|done].
  - rewrite merge_unfold. simpl. rewrite !dom_empty_L.
    case_decide; [naive_solver|done].
  - rewrite merge_Some by done. simpl.
    by rewrite (map_zip_with_empty (M := gmap string)).
Qed.
End Auxiliaries_more.

(** ** TrainState *)

Section TrainState_more.
Context `{Backend}.
Import TrainState.

(** X8: [replace] with every keyword set to the value that the field has
    already (as in [state.replace(step=state.step)]) returns a new object
    that is equal to [state], and leaves [state] in the store. *)
Theorem replace_same_fields (σ : store) self s (changes : list change) :
  σ !! self = Some s →
  Forall (λ c, apply_change s c = s) changes →
  ∃ r σ',
    replace self changes σ = (Some r, σ')
    ∧ σ' !! r = Some s ∧ σ' !! self = Some s ∧ r ≠ self.
Proof.
  intros Hs Hsame.
  assert (foldl apply_change s changes = s) as Hfold.
  { induction Hsame as [|c changes Hc _ IH]; [done|]. simpl. by rewrite Hc. }
  exists (length σ), (σ ++ [s]).
  unfold replace, getattr, new, mbind, Eff_bind. rewrite Hs. simpl.
  rewrite Hfold. split; [done|].
  destruct (lookup_new σ s self s Hs) as (Hold & Hnew & Hne). done.
Qed.

(** X9: [next] allocates exactly one object, at a fresh reference, and
    leaves every object of the store as it is. *)
Theorem next_store_frame (σ : store) self s new_params new_opt_state :
  σ !! self = Some s →
  ∃ r σ',
    next self new_params new_opt_state σ = (Some r, σ')
    ∧ r = length σ
    ∧ length σ' = S (length σ)
    ∧ ∀ r0 s0, σ !! r0 = Some s0 → σ' !! r0 = Some s0.
Proof.
  intros Hs. eexists _, _. rewrite (next_run _ _ _ _ _ Hs).
  split; [reflexivity|]. split; [reflexivity|].
  split; [rewrite length_app; simpl; lia|].
  intros r0 s0 Hr0. by apply lookup_app_l_Some.
Qed.

(** X10: two calls of [next] in sequence advance the step by two; the
    params (respectively the optimizer state) are those of the last truthy
    argument, or those of the first state when both arguments are falsy;
    the training time is that of the first state. *)
Theorem next_next (σ : store) self s np1 no1 np2 no2 :
  σ !! self = Some s →
  ∃ r1 σ1 r2 σ2 s2,
    next self np1 no1 σ = (Some r1, σ1)
    ∧ next r1 np2 no2 σ1 = (Some r2, σ2)
    ∧ σ2 !! r2 = Some s2
    ∧ step s2 = (step s + 2)%Z
    ∧ params s2
      = (if py_bool np2 then np2 else if py_bool np1 then np1 else params s)
    ∧ opt_state s2
      = (if py_bool no2 then no2
         else if py_bool no1 then no1 else opt_state s)
    ∧ training_time_hours s2 = training_time_hours s
    ∧ σ2 !! self = Some s.
Proof.
  intros Hs. eexists _, _, _, _, _.
  rewrite (next_run _ _ _ _ _ Hs). split; [reflexivity|].
  edestruct lookup_new as (Hold & Hnew & _); [exact Hs|].
  rewrite (next_run _ _ _ _ _ Hnew). split; [reflexivity|].
  split; [by apply list_lookup_middle|]. simpl.
  split; [lia|]. do 3 (split; [done|]).
  by apply lookup_app_l_Some.
Qed.
End TrainState_more.

(** ** ModelWithAux *)

Section ModelWithAux_more.
Context `{Libraries}.
Import config_util ModelWithAux.

(** X11: [init] returns exactly when the four collaborators are resolved
    and the variables that the model initializes (in training mode, on the
    mock batch, in a context at step 0 without params) have a ["params"]
    collection; it then returns that collection, unfrozen, and nothing of
    the other collections. It raises otherwise. *)
Theorem init_result self init_rngs elem_spec model_method params :
  init self init_rngs elem_spec model_method = Some params
  ↔ _assert_root_cfg_resolved self = Some ()
    ∧ ∃ m p0,
        model self = Resolved m
        ∧ nn.init m init_rngs
            (get_model_inputs m
               (Context.new 0 (mock_batch_from_elem_spec elem_spec) PyNone))
            model_method true !! "params" = Some p0
        ∧ params = unfreeze p0.
Proof.
  unfold init.
  destruct (_assert_root_cfg_resolved self) as [[]|]; simpl;
    [|split; [done|by intros [? _]]].
  destruct (model self) as [path|m]; simpl.
  { split; [done|]. by intros (_ & m & p0 & ? & _). }
  destruct (nn.init m _ _ _ _ !! "params") as [p0|] eqn:Hp0; simpl.
  - split.
    + intros [= <-]. split; [done|]. by exists m, p0.
    + intros (_ & m' & p0' & [= <-] & Hp0' & ->).
      rewrite Hp0 in Hp0'. by injection Hp0' as <-.
  - split; [done|]. intros (_ & m' & p0' & [= <-] & Hp0' & _).
    by rewrite Hp0 in Hp0'.
Qed.

(** X12: when [forward] returns, the model and the losses were resolved,
    the model was applied with [capture_intermediates] set, the losses were
    computed on a context that holds the predictions and the
    ["intermediates"] collection but no loss state, gradient or update, and
    the returned context is that context with the loss states; its
    gradients and updates are unset. *)
Theorem forward_result self params batch rngs step is_training loss context :
  forward self params batch rngs step is_training = Some (loss, context) →
  ∃ m ls preds collections interms,
    model self = Resolved m
    ∧ losses self = Resolved ls
    ∧ nn.apply m {["params" := params]}
        (get_model_inputs m (Context.new step batch params)) rngs true
        is_training = (preds, collections)
    ∧ collections !! "intermediates" = Some interms
    ∧ compute_losses ls
        (Context.mk step batch params preds interms ∅ PyNone PyNone)
      = (loss, Context.loss_states context)
    ∧ context
      = Context.mk step batch params preds interms
          (Context.loss_states context) PyNone PyNone.
Proof.
  unfold forward. intros Hf.
  destruct (model self) as [?|m]; [done|]. simpl in Hf.
  destruct (nn.apply m _ _ _ _ _) as [preds collections] eqn:Happly.
  destruct (collections !! "intermediates") as [interms|] eqn:Hint; [|done].
  simpl in Hf. destruct (losses self) as [?|ls]; [done|]. simpl in Hf.
  destruct (compute_losses ls _) as [loss_total loss_states] eqn:Hloss.
  injection Hf as <- <-.
  exists m, ls, preds, collections, interms. by repeat split.
Qed.

(** X13: [forward] raises when the collections that the model returns have
    no ["intermediates"] entry. *)
Theorem forward_no_intermediates self m params batch rngs step is_training :
  model self = Resolved m →
  (nn.apply m {["params" := params]}
     (get_model_inputs m (Context.new step batch params)) rngs true
     is_training).2 !! "intermediates" = None →
  forward self params batch rngs step is_training = None.
Proof.
  intros Hm Hint. unfold forward. rewrite Hm. simpl.
  destruct (nn.apply m _ _ _ _ _) as [preds collections]. simpl in Hint.
  by rewrite Hint.
Qed.

(** X14: the auxiliaries of [get_aux] are keyed by the registered names:
    with its flag set, [metric_states] has exactly the names of the
    registered metrics and [summary_kwargs] exactly those of the registered
    summaries, and [loss_states] has the names of the loss states of the
    context. *)
Theorem get_aux_keys self context ms ss
    (return_losses return_metrics return_summaries : bool) :
  metrics self = Resolved ms →
  summaries self = Resolved ss →
  ∃ aux,
    get_aux self context return_losses return_metrics return_summaries
    = Some aux
    ∧ dom (Auxiliaries.loss_states aux)
      = (if return_losses then dom (Context.loss_states context) else ∅)
    ∧ dom (Auxiliaries.metric_states aux)
      = (if return_metrics then dom ms else ∅)
    ∧ dom (Auxiliaries.summary_kwargs aux)
      = (if return_summaries then dom ss else ∅).
Proof.
  intros Hms Hss. rewrite get_aux_unfold, Hms, Hss. simpl.
  exists (Auxiliaries.mk
            (if return_losses then Context.loss_states context else ∅)
            (if return_metrics then
               (λ m, kd_metrics.get_state_from_context m context) <$> ms
             else ∅)
            (if return_summaries then
               (λ s, kd_summaries.gather_kwargs s context) <$> ss
             else ∅)).
  split.
  - by destruct return_metrics, return_summaries.
  - destruct return_losses, return_metrics, return_summaries; simpl;
      by rewrite ?dom_fmap_L, ?dom_empty_L.
Qed.

(** X15: two auxiliaries that [get_aux] extracts with the same flags, from
    contexts whose loss states have the same names, always merge; the merge
    has the summaries of the first one. *)
Theorem get_aux_merge self c1 c2
    (return_losses return_metrics return_summaries : bool) a1 a2 :
  get_aux self c1 return_losses return_metrics return_summaries = Some a1 →
  get_aux self c2 return_losses return_metrics return_summaries = Some a2 →
  (return_losses = true →
   dom (Context.loss_states c1) = dom (Context.loss_states c2)) →
  ∃ a,
    Auxiliaries.merge a1 a2 = Some a
    ∧ Auxiliaries.summary_kwargs a = Auxiliaries.summary_kwargs a1.
Proof.
  rewrite !get_aux_unfold. intros H1 H2 Hloss. eexists.
  rewrite merge_Some; [done| |].
  - destruct return_metrics, return_summaries, (value (metrics self)),
      (value (summaries self)); simplify_eq/=;
      destruct return_losses; simpl; auto.
  - destruct return_metrics, return_summaries, (value (metrics self)),
      (value (summaries self)); simplify_eq/=;
      by rewrite ?dom_fmap_L.
Qed.

(** X16: auxiliaries extracted with [return_metrics] and auxiliaries
    extracted without it do not merge, in either order, as soon as a metric
    is registered. *)
Theorem get_aux_merge_flags self c1 c2
    (return_losses1 return_summaries1 return_losses2 return_summaries2 : bool)
    a1 a2 :
  get_aux self c1 return_losses1 true return_summaries1 = Some a1 →
  get_aux self c2 return_losses2 false return_summaries2 = Some a2 →
  Auxiliaries.metric_states a1 ≠ ∅ →
  Auxiliaries.merge a1 a2 = None ∧ Auxiliaries.merge a2 a1 = None.
Proof.
  rewrite !get_aux_unfold. intros H1 H2 Hne.
  assert (Auxiliaries.metric_states a2 = ∅) as Hempty.
  { simpl in H2. destruct return_summaries2, (value (summaries self));
      by simplify_eq/=. }
  assert (dom (Auxiliaries.metric_states a1)
          ≠ dom (Auxiliaries.metric_states a2)) as Hdom.
  { rewrite Hempty, dom_empty_L. by rewrite dom_empty_iff_L. }
  rewrite !merge_unfold. split; case_decide; naive_solver.
Qed.
End ModelWithAux_more.

(** ** TrainStep *)

Section TrainStep_more.
Context `{Libraries}.
Import config_util TrainStep.

(** The run of [step] once the forward pass has succeeded: the next state
    is allocated, whether the extraction of the auxiliaries succeeds or
    not. *)
Lemma step_eq self (σ : TrainState.store) state s batch
    return_losses return_metrics return_summaries rngs opt loss context :
  let fwd := λ params,
    ModelWithAux.forward (model_with_aux self) params batch
      (rngs_lib.train_rngs rngs (TrainState.step s)) (TrainState.step s)
      true in
  let grads := grad (λ p, fst <$> fwd p) (TrainState.params s) in
  let upd :=
    optax.update opt grads (TrainState.opt_state s) (TrainState.params s) in
  let new_params := apply_updates (TrainState.params s) upd.1 in
  σ !! state = Some s →
  rng_streams self = Resolved rngs →
  optimizer self = Resolved opt →
  fwd (TrainState.params s) = Some (loss, context) →
  step self state batch return_losses return_metrics return_summaries σ
  = (pair (length σ) <$>
       ModelWithAux.get_aux (model_with_aux self)
         (Context.replace context
            [Context.grads_ grads; Context.updates_ upd.1])
         return_losses return_metrics return_summaries,
     σ ++ [TrainState.mk (TrainState.step s + 1)
             (if py_bool new_params then new_params
              else TrainState.params s)
             (if py_bool upd.2 then upd.2 else TrainState.opt_state s)
             (TrainState.training_time_hours s)]).
Proof.
  intros fwd grads upd new_params Hs Hrngs Hopt Hfwd.
  subst new_params upd grads fwd. cbv beta in *.
  destruct (step_cases self σ state batch return_losses return_metrics
              return_summaries)
    as [Hfail|(s0 & rngs0 & opt0 & loss0 & context0 & Hs0 & Hrngs0 & Hopt0
               & Hfwd0 & ->)].
  - exfalso. revert Hfail.
    unfold step, TrainState.getattr, jax.grad_has_aux, pure.
    unfold mbind at 1, Eff_bind at 1. rewrite Hs.
    cbn [fmap option_fmap option_map].
    unfold mbind at 1, Eff_bind at 1. rewrite Hrngs. cbn [value].
    unfold mbind at 1, Eff_bind at 1. rewrite Hs.
    cbn [fmap option_fmap option_map].
    unfold mbind at 1, Eff_bind at 1. rewrite Hfwd.
    cbn [mbind option_bind].
    unfold mbind at 1, Eff_bind at 1. rewrite Hopt. cbn [value].
    unfold mbind at 1, Eff_bind at 1. rewrite Hs.
    cbn [fmap option_fmap option_map].
    destruct (optax.update opt _ _ _) as [updates new_opt_state].
    unfold mbind at 1, Eff_bind at 1. rewrite (next_run _ _ _ _ _ Hs).
    unfold mbind, Eff_bind, pure.
    destruct (ModelWithAux.get_aux _ _ _ _ _); [discriminate|].
    intros Hfail. injection Hfail as Hlen.
    apply (f_equal length) in Hlen. rewrite length_app in Hlen.
    simpl in Hlen. lia.
  - rewrite Hs in Hs0. injection Hs0 as <-.
    rewrite Hrngs in Hrngs0. injection Hrngs0 as <-.
    rewrite Hopt in Hopt0. injection Hopt0 as <-.
    rewrite Hfwd in Hfwd0. by injection Hfwd0 as <- <-.
Qed.


(** X18: the three flags have no part in the transition: whatever the
    flags, [step] leaves the same store, hence builds the same next
    state. *)
Theorem step_flags_store self (σ : TrainState.store) state batch
    (l1 m1 s1 l2 m2 s2 : bool) :
  (step self state batch l1 m1 s1 σ).2 = (step self state batch l2 m2 s2 σ).2.
Proof.
  destruct (step_cases self σ state batch l1 m1 s1)
    as [H1|(s & rngs & opt & loss & context & Hs & Hrngs & Hopt & Hfwd & _)].
  - destruct (step_cases self σ state batch l2 m2 s2)
      as [H2|(s & rngs & opt & loss & context & Hs & Hrngs & Hopt & Hfwd & _)].
    + by rewrite H1, H2.
    + exfalso.
      rewrite (step_eq self σ state s batch l1 m1 s1 rngs opt loss context
                 Hs Hrngs Hopt Hfwd) in H1.
      injection H1 as _ Hlen. apply (f_equal length) in Hlen.
      rewrite length_app in Hlen. simpl in Hlen. lia.
  - by rewrite !(step_eq self σ state s batch _ _ _ rngs opt loss context
                   Hs Hrngs Hopt Hfwd).
Qed.


(** X20: with the three flags left to their default, [step] returns the
    empty [Auxiliaries()] whenever it returns. *)
Theorem step_default_flags self (σ : TrainState.store) state batch
    next_state aux σ' :
  step self state batch false false false σ = (Some (next_state, aux), σ') →
  aux = Auxiliaries.default.
Proof.
  intros Hstep.
  destruct (step_cases self σ state batch false false false)
    as [Hfail|(s0 & rngs & opt & loss & context & _ & _ & _ & _ & Hrun)].
  { rewrite Hfail in Hstep. discriminate. }
  rewrite Hrun in Hstep. by injection Hstep as _ <- _.
Qed.

(** X21: when the forward pass raises, [step] raises and has not allocated
    a next state. *)
Theorem step_forward_fails self (σ : TrainState.store) state s batch
    return_losses return_metrics return_summaries rngs :
  σ !! state = Some s →
  rng_streams self = Resolved rngs →
  ModelWithAux.forward (model_with_aux self) (TrainState.params s) batch
    (rngs_lib.train_rngs rngs (TrainState.step s)) (TrainState.step s) true
  = None →
  step self state batch return_losses return_metrics return_summaries σ
  = (None, σ).
Proof.
  intros Hs Hrngs Hfwd.
  destruct (step_cases self σ state batch return_losses return_metrics
              return_summaries)
    as [Hfail|(s0 & rngs0 & opt & loss & context & Hs0 & Hrngs0 & _
               & Hfwd0 & _)]; [done|].
  rewrite Hs in Hs0. injection Hs0 as <-.
  rewrite Hrngs in Hrngs0. injection Hrngs0 as <-.
  by rewrite Hfwd in Hfwd0.
Qed.

(** Either [init] raises and leaves the store as it is, or it allocates the
    initial state. *)
Lemma init_cases self (σ : TrainState.store) elem_spec model_method :
  init self elem_spec model_method σ = (None, σ)
  ∨ ∃ rngs opt params,
      rng_streams self = Resolved rngs
      ∧ optimizer self = Resolved opt
      ∧ ModelWithAux.init (model_with_aux self) (rngs_lib.init_rngs rngs)
          (freeze elem_spec) model_method = Some params
      ∧ init self elem_spec model_method σ
        = (Some (length σ),
           σ ++ [TrainState.mk 0 params (optax.init opt params)
                   (S754_zero false)]).
Proof.
  unfold init, _init, _assert_root_cfg_resolved, pure, TrainState.new.
  unfold mbind, Eff_bind.
  destruct (optimizer self) as [?|opt]; simpl.
  { left. by destruct (is_ref (rng_streams self)). }
  destruct (rng_streams self) as [?|rngs]; simpl; [by left|].
  destruct (ModelWithAux.init _ _ _ _) as [params|] eqn:Hinit; [|by left].
  right. by exists rngs, opt, params.
Qed.

(** X22: a call of [init] that raises allocates nothing; a call that
    returns allocates exactly one state, at a fresh reference, with step 0
    and zero training time, and leaves the objects of the store as they
    are. *)
Theorem init_store self (σ : TrainState.store) elem_spec model_method :
  match init self elem_spec model_method σ with
  | (None, σ') => σ' = σ
  | (Some state, σ') =>
      state = length σ
      ∧ ∃ s, σ' = σ ++ [s]
             ∧ TrainState.step s = 0%Z
             ∧ TrainState.training_time_hours s = S754_zero false
  end.
Proof.
  destruct (init_cases self σ elem_spec model_method)
    as [->|(rngs & opt & params & _ & _ & _ & ->)]; [done|].
  split; [done|]. by eexists.
Qed.


(** The loss states of the context of a forward pass are those that the
    registered losses compute. *)
Lemma forward_loss_states mwa params batch rngs step is_training loss
    context :
  ModelWithAux.forward mwa params batch rngs step is_training
  = Some (loss, context) →
  ∃ ls c0,
    ModelWithAux.losses mwa = Resolved ls
    ∧ Context.loss_states context = (compute_losses ls c0).2.
Proof.
  unfold ModelWithAux.forward. intros Hf.
  destruct (ModelWithAux.model mwa) as [?|m]; [done|]. simpl in Hf.
  destruct (nn.apply m _ _ _ _ _) as [preds collections].
  destruct (collections !! "intermediates") as [interms|]; [|done].
  simpl in Hf. destruct (ModelWithAux.losses mwa) as [?|ls]; [done|].
  simpl in Hf.
  destruct (compute_losses ls _) as [loss_total loss_states] eqn:Hloss.
  injection Hf as <- <-. eexists ls, _. split; [done|].
  simpl. by rewrite Hloss.
Qed.

(** X24: when the losses give one state per registered loss, the
    auxiliaries of any two steps of the same [TrainStep], taken with the
    same flags, merge. *)
Theorem step_aux_merge self
    (σ1 : TrainState.store) state1 batch1 next1 aux1 σ1'
    (σ2 : TrainState.store) state2 batch2 next2 aux2 σ2'
    (return_losses return_metrics return_summaries : bool) :
  (∀ ls c, dom (compute_losses ls c).2 = dom ls) →
  step self state1 batch1 return_losses return_metrics return_summaries σ1
  = (Some (next1, aux1), σ1') →
  step self state2 batch2 return_losses return_metrics return_summaries σ2
  = (Some (next2, aux2), σ2') →
  is_Some (Auxiliaries.merge aux1 aux2).
Proof.
  intros Hkeys Hstep1 Hstep2.
  destruct (step_cases self σ1 state1 batch1 return_losses return_metrics
              return_summaries)
    as [Hfail|(s1 & rngs1 & opt1 & loss1 & c1 & _ & _ & _ & Hfwd1 & Hrun1)].
  { rewrite Hfail in Hstep1. discriminate. }
  destruct (step_cases self σ2 state2 batch2 return_losses return_metrics
              return_summaries)
    as [Hfail|(s2 & rngs2 & opt2 & loss2 & c2 & _ & _ & _ & Hfwd2 & Hrun2)].
  { rewrite Hfail in Hstep2. discriminate. }
  rewrite Hrun1 in Hstep1. rewrite Hrun2 in Hstep2.
  destruct (ModelWithAux.get_aux _ _ _ _ _) as [a1|] eqn:Ha1 in Hstep1;
    [|discriminate].
  destruct (ModelWithAux.get_aux _ _ _ _ _) as [a2|] eqn:Ha2 in Hstep2;
    [|discriminate].
  injection Hstep1 as _ <- _. injection Hstep2 as _ <- _.
  assert (dom (Context.loss_states c1) = dom (Context.loss_states c2))
    as Hloss.
  { apply forward_loss_states in Hfwd1 as (ls1 & c01 & Hls1 & ->).
    apply forward_loss_states in Hfwd2 as (ls2 & c02 & Hls2 & ->).
    rewrite Hls1 in Hls2. injection Hls2 as <-. by rewrite !Hkeys. }
  clear Hfwd1 Hfwd2 Hrun1 Hrun2.
  rewrite get_aux_unfold in Ha1, Ha2.
  rewrite merge_Some; [done| |].
  - destruct return_metrics, return_summaries,
      (value (ModelWithAux.metrics (model_with_aux self))),
      (value (ModelWithAux.summaries (model_with_aux self)));
      simplify_eq/=; by destruct return_losses.
  - destruct return_metrics, return_summaries,
      (value (ModelWithAux.metrics (model_with_aux self))),
      (value (ModelWithAux.summaries (model_with_aux self)));
      simplify_eq/=; by rewrite ?dom_fmap_L.
Qed.
End TrainStep_more.

(** Instances of the further properties on the concrete inputs of [Toy]. *)

Section Toy_more.
#[local] Existing Instance Toy.backend.
#[local] Existing Instance Toy.libraries.

Lemma reduce_states_single_app_witness :
  @_reduce_states_single Toy.backend ([1; 2] ++ [3; 4])%Z = Some (3 + 7)%Z.
Proof.
  apply (@reduce_states_single_app Toy.backend [1; 2]%Z [3; 4]%Z 3%Z 7%Z).
  - intros x y z. simpl. lia.
  - reflexivity.
  - reflexivity.
Defined.

Lemma reduce_states_same_keys_witness :
  ∃ m,
    _reduce_states
      [Auxiliaries.metric_states Toy.aux_a;
       Auxiliaries.metric_states Toy.aux_b;
       Auxiliaries.metric_states Toy.aux_c] = Some m
    ∧ dom m = dom (Auxiliaries.metric_states Toy.aux_a)
    ∧ (∀ k, m !! k
            = (v0 ← Auxiliaries.metric_states Toy.aux_a !! k;
               vs ← mapM (λ d : gmap string Z, d !! k)
                      [Auxiliaries.metric_states Toy.aux_b;
                       Auxiliaries.metric_states Toy.aux_c];
               Some (foldl Z.add v0 vs)))
    ∧ ([Auxiliaries.metric_states Toy.aux_b;
        Auxiliaries.metric_states Toy.aux_c] = [] →
       m = Auxiliaries.metric_states Toy.aux_a).
Proof.
  apply (reduce_states_same_keys (Auxiliaries.metric_states Toy.aux_a)
           [Auxiliaries.metric_states Toy.aux_b;
            Auxiliaries.metric_states Toy.aux_c]).
  repeat constructor; vm_compute; reflexivity.
Defined.

Lemma reduce_states_key_mismatch_witness :
  _reduce_states
    [Auxiliaries.metric_states Toy.aux_a;
     Auxiliaries.metric_states Toy.aux_b;
     Auxiliaries.metric_states Toy.aux_d] = None.
Proof.
  apply (reduce_states_key_mismatch (Auxiliaries.metric_states Toy.aux_a)
           [Auxiliaries.metric_states Toy.aux_b;
            Auxiliaries.metric_states Toy.aux_d]).
  apply Exists_cons_tl, Exists_cons_hd. vm_compute. discriminate.
Defined.

Lemma merge_lookup_witness :
  Auxiliaries.merge Toy.aux_a Toy.aux_b = Some Toy.aux_ab
  ∧ Auxiliaries.metric_states Toy.aux_ab !! "norm" = Some (20 + 2)%Z.
Proof.
  assert (Auxiliaries.merge Toy.aux_a Toy.aux_b = Some Toy.aux_ab) as Hab.
  { vm_compute. reflexivity. }
  split; [exact Hab|].
  destruct (merge_lookup Toy.aux_a Toy.aux_b Toy.aux_ab Hab)
    as (_ & _ & _ & _ & _ & Hm).
  rewrite Hm. reflexivity.
Defined.

Lemma merge_comm_witness :
  ∃ ab ba,
    Auxiliaries.merge Toy.aux_a Toy.aux_b = Some ab
    ∧ Auxiliaries.merge Toy.aux_b Toy.aux_a = Some ba
    ∧ Auxiliaries.loss_states ab = Auxiliaries.loss_states ba
    ∧ Auxiliaries.metric_states ab = Auxiliaries.metric_states ba.
Proof.
  apply (merge_comm Toy.aux_a Toy.aux_b).
  - intros x y. simpl. lia.
  - vm_compute. reflexivity.
  - vm_compute. reflexivity.
Defined.

Lemma merge_default_witness :
  Auxiliaries.merge Auxiliaries.default Toy.aux_a = None
  ∧ Auxiliaries.merge Toy.aux_a Auxiliaries.default = None
  ∧ Auxiliaries.merge Auxiliaries.default Auxiliaries.default
    = Some Auxiliaries.default.
Proof.
  apply (merge_default Toy.aux_a). left. vm_compute. discriminate.
Defined.

Lemma replace_same_fields_witness :
  ∃ r σ',
    TrainState.replace 0%nat
      [TrainState.step_ (TrainState.step Toy.state0)] Toy.store0
    = (Some r, σ')
    ∧ σ' !! r = Some Toy.state0 ∧ σ' !! 0%nat = Some Toy.state0
    ∧ r ≠ 0%nat.
Proof.
  apply (replace_same_fields Toy.store0 0%nat Toy.state0
           [TrainState.step_ (TrainState.step Toy.state0)]).
  - reflexivity.
  - repeat constructor.
Defined.

Lemma next_store_frame_witness :
  ∃ r σ',
    TrainState.next 0%nat PyNone PyNone Toy.store0 = (Some r, σ')
    ∧ r = length Toy.store0
    ∧ length σ' = S (length Toy.store0)
    ∧ ∀ r0 s0, Toy.store0 !! r0 = Some s0 → σ' !! r0 = Some s0.
Proof.
  apply (next_store_frame Toy.store0 0%nat Toy.state0 PyNone PyNone).
  reflexivity.
Defined.

Lemma next_next_witness :
  ∃ r1 σ1 r2 σ2 s2,
    TrainState.next 0%nat (Dict [("w", Leaf 3%Z)]) PyNone Toy.store0
    = (Some r1, σ1)
    ∧ TrainState.next r1 (Dict []) PyNone σ1 = (Some r2, σ2)
    ∧ σ2 !! r2 = Some s2
    ∧ TrainState.step s2 = (TrainState.step Toy.state0 + 2)%Z
    ∧ TrainState.params s2 = Dict [("w", Leaf 3%Z)]
    ∧ TrainState.opt_state s2 = TrainState.opt_state Toy.state0
    ∧ TrainState.training_time_hours s2
      = TrainState.training_time_hours Toy.state0
    ∧ σ2 !! 0%nat = Some Toy.state0.
Proof.
  apply (next_next Toy.store0 0%nat Toy.state0
           (Dict [("w", Leaf 3%Z)]) PyNone (Dict []) PyNone).
  reflexivity.
Defined.

Lemma forward_result_witness :
  ModelWithAux.forward Toy.model_with_aux (TrainState.params Toy.state0)
    Toy.batch 5%Z 4%Z true = Some (S754_zero false, Toy.context0)
  ∧ Context.grads Toy.context0 = PyNone
  ∧ Context.updates Toy.context0 = PyNone.
Proof.
  assert (ModelWithAux.forward Toy.model_with_aux
            (TrainState.params Toy.state0) Toy.batch 5%Z 4%Z true
          = Some (S754_zero false, Toy.context0)) as Hfwd.
  { vm_compute. reflexivity. }
  split; [exact Hfwd|].
  destruct (forward_result _ _ _ _ _ _ _ _ Hfwd)
    as (m & ls & preds & collections & interms & _ & _ & _ & _ & _ & Hctx).
  rewrite Hctx. split; reflexivity.
Defined.

Lemma forward_no_intermediates_witness :
  ModelWithAux.forward Toy.model_with_aux_bare (TrainState.params Toy.state0)
    Toy.batch 5%Z 4%Z true = None.
Proof.
  apply (forward_no_intermediates Toy.model_with_aux_bare Toy.model_bare).
  - reflexivity.
  - vm_compute. reflexivity.
Defined.

Lemma get_aux_keys_witness :
  ∃ aux,
    ModelWithAux.get_aux Toy.model_with_aux Toy.context0 true true false
    = Some aux
    ∧ dom (Auxiliaries.loss_states aux)
      = dom (Context.loss_states Toy.context0)
    ∧ dom (Auxiliaries.metric_states aux) = {["acc"]}
    ∧ dom (Auxiliaries.summary_kwargs aux) = ∅.
Proof.
  destruct (get_aux_keys Toy.model_with_aux Toy.context0 _ _ true true false
              eq_refl eq_refl) as (aux & Haux & Hl & Hm & Hs).
  exists aux. split; [exact Haux|]. split; [exact Hl|].
  split; [|exact Hs]. rewrite Hm. vm_compute. reflexivity.
Defined.

Lemma get_aux_merge_witness :
  ∃ a,
    Auxiliaries.merge Toy.aux1 Toy.aux1 = Some a
    ∧ Auxiliaries.summary_kwargs a = Auxiliaries.summary_kwargs Toy.aux1.
Proof.
  apply (get_aux_merge Toy.model_with_aux Toy.context0 Toy.context0
           true true true Toy.aux1 Toy.aux1).
  - vm_compute. reflexivity.
  - vm_compute. reflexivity.
  - reflexivity.
Defined.

Lemma get_aux_merge_flags_witness :
  Auxiliaries.merge Toy.aux1 Auxiliaries.default = None
  ∧ Auxiliaries.merge Auxiliaries.default Toy.aux1 = None.
Proof.
  apply (get_aux_merge_flags Toy.model_with_aux Toy.context0 Toy.context0
           true true false false Toy.aux1 Auxiliaries.default).
  - vm_compute. reflexivity.
  - vm_compute. reflexivity.
  - vm_compute. discriminate.
Defined.



Lemma step_default_flags_witness :
  TrainStep.step Toy.train_step 0%nat Toy.batch false false false Toy.store0
  = (Some (1%nat, Auxiliaries.default), Toy.store0 ++ [Toy.state1])
  ∧ Auxiliaries.default = Auxiliaries.default.
Proof.
  assert (TrainStep.step Toy.train_step 0%nat Toy.batch false false false
            Toy.store0
          = (Some (1%nat, Auxiliaries.default), Toy.store0 ++ [Toy.state1]))
    as Hstep.
  { vm_compute. reflexivity. }
  split; [exact Hstep|].
  exact (step_default_flags Toy.train_step Toy.store0 0%nat Toy.batch
           1%nat Auxiliaries.default (Toy.store0 ++ [Toy.state1]) Hstep).
Defined.

Lemma step_forward_fails_witness :
  TrainStep.step Toy.train_step_bare 0%nat Toy.batch true true true Toy.store0
  = (None, Toy.store0).
Proof.
  apply (step_forward_fails Toy.train_step_bare Toy.store0 0%nat Toy.state0
           Toy.batch true true true Toy.rng_streams).
  - reflexivity.
  - reflexivity.
  - vm_compute. reflexivity.
Defined.


Lemma step_aux_merge_witness :
  is_Some (Auxiliaries.merge Toy.aux1 Toy.aux1).
Proof.
  apply (step_aux_merge Toy.train_step
           Toy.store0 0%nat Toy.batch 1%nat Toy.aux1
           (Toy.store0 ++ [Toy.state1])
           Toy.store0 0%nat Toy.batch 1%nat Toy.aux1
           (Toy.store0 ++ [Toy.state1])
           true true true).
  - intros ls c. simpl. apply dom_fmap_L.
  - vm_compute. reflexivity.
  - vm_compute. reflexivity.
Defined.
End Toy_more.
